(** * flaskr: the authentication blueprint and the application factory

    A shallow embedding of [flaskr/auth.py] and of the route table that
    [flaskr/__init__.py] assembles.  Views are computations in a state and
    exception monad over the part of the world a request can touch: the
    session mapping, the request-local namespace [g], the [user] table seen
    through the request's connection, and the queue of flashed messages. *)

From Stdlib Require Import ZArith Ascii String.
From stdpp Require Import gmap strings list.

Open Scope string_scope.
Open Scope Z_scope.

(** ** Data *)

(** A row of the [user] table, addressed by column name in the source
    ([user['id']], [user['password']]). *)
Record user_row := UserRow {
  u_id : Z;
  u_username : string;
  u_password : string;
}.

(** Values that reach a view as arguments (what the URL converters make). *)
Inductive pyval :=
| PInt (n : Z)
| PStr (s : string).

(** The exceptions the embedded code can raise. *)
Inductive exn :=
| BadRequestKeyError (key : string)   (* request.form[key], key not submitted *)
| IntegrityError                      (* db.IntegrityError *)
| BuildError (endpoint : string)      (* url_for on an endpoint that cannot be built *)
| TypeError                           (* a call that does not fit the signature *)
| AttributeError (attr : string).     (* g.<attr> read before it was set *)

Inductive response :=
| Redirect (location : string)
| Rendered (template : string)
| Body (text : string).

(** The statements the blueprint sends through the connection. *)
Inductive db_op :=
| SelectByUsername (u : string)   (* SELECT * FROM user WHERE username = ? *)
| SelectById (i : Z)              (* SELECT * FROM user WHERE id = ? *)
| InsertUser (u h : string)       (* INSERT INTO user (username,password) VALUES (?,?) *)
| Commit.                         (* db.commit() *)

Record request := Request {
  method : string;
  form : gmap string string;
}.

(** What a request can read and change.  [session] is the dict-like session;
    [g_user] is the attribute [g.user] ([None]: not set yet, [Some None]: set
    to Python's None); [g_db] records whether [get_db] opened the request's
    connection; [table] holds the committed rows, [txn] the rows inserted
    through the connection and not committed yet; [queries] logs every
    statement executed; [flashes] is the queue filled by [flash]. *)
Record world := World {
  session : gmap string Z;
  g_user : option (option user_row);
  g_db : bool;
  table : list user_row;
  txn : list user_row;
  queries : list db_op;
  flashes : list string;
}.

Definition set_session (s : gmap string Z) (w : world) : world :=
  World s (g_user w) (g_db w) (table w) (txn w) (queries w) (flashes w).
Definition set_g_user (u : option (option user_row)) (w : world) : world :=
  World (session w) u (g_db w) (table w) (txn w) (queries w) (flashes w).
Definition set_g_db (b : bool) (w : world) : world :=
  World (session w) (g_user w) b (table w) (txn w) (queries w) (flashes w).
Definition set_table (t : list user_row) (w : world) : world :=
  World (session w) (g_user w) (g_db w) t (txn w) (queries w) (flashes w).
Definition set_txn (t : list user_row) (w : world) : world :=
  World (session w) (g_user w) (g_db w) (table w) t (queries w) (flashes w).
Definition set_queries (q : list db_op) (w : world) : world :=
  World (session w) (g_user w) (g_db w) (table w) (txn w) q (flashes w).
Definition set_flashes (f : list string) (w : world) : world :=
  World (session w) (g_user w) (g_db w) (table w) (txn w) (queries w) f.

(** ** The monad of views: state plus exceptions

    A raised exception keeps the state reached so far, as in Python. *)
Inductive outcome (A : Type) :=
| Return (a : A)
| Raise (e : exn).
Arguments Return {A} a.
Arguments Raise {A} e.

Definition M (A : Type) : Type := world -> outcome A * world.

Definition ret {A} (a : A) : M A := fun w => (Return a, w).
Definition raise {A} (e : exn) : M A := fun w => (Raise e, w).
Definition bind {A B} (m : M A) (k : A -> M B) : M B :=
  fun w => match m w with
           | (Return a, w') => k a w'
           | (Raise e, w') => (Raise e, w')
           end.

Declare Scope view_scope.
Delimit Scope view_scope with view.
Notation "x <- m ;; k" := (bind m (fun x => k))
  (at level 100, m at next level, right associativity) : view_scope.
Notation "m ;;; k" := (bind m (fun _ => k))
  (at level 100, right associativity) : view_scope.
Open Scope view_scope.

(** ** The application's route table ([flaskr/__init__.py])

    [create_app] registers the view [hello] under [/hello] and the blueprint
    [auth]; the framework itself adds the [static] endpoint.  A blueprint
    joins its prefix and a rule with exactly one slash between them. *)
Fixpoint lstrip_slash (s : string) : string :=
  match s with
  | String "/"%char s' => lstrip_slash s'
  | _ => s
  end.

Fixpoint rstrip_slash (s : string) : string :=
  match s with
  | "" => ""
  | String c s' =>
      match rstrip_slash s', c with
      | "", "/"%char => ""
      | r, _ => String c r
      end
  end.

Definition join_rule (url_prefix rule : string) : string :=
  rstrip_slash url_prefix ++ "/" ++ lstrip_slash rule.

(** The blueprint [bp = Blueprint('auth', __name__, url_prefix='/auth')] and
    its three [bp.route] decorations: rule and view function name. *)
Definition bp_name : string := "auth".
Definition bp_url_prefix : string := "/auth".
Definition bp_routes : list (string * string) :=
  [("/register", "register"); ("login", "login"); ("/logout", "logout")].

Definition register_blueprint (name url_prefix : string)
    (routes : list (string * string)) : list (string * string) :=
  map (fun '(rule, f) => (name ++ "." ++ f, join_rule url_prefix rule)) routes.

(** Endpoint and rule of every route of the application [create_app]
    returns. *)
Definition create_app : list (string * string) :=
  [("static", "/static/<path:filename>"); ("hello", "/hello")]
  ++ register_blueprint bp_name bp_url_prefix bp_routes.

Fixpoint has_variable (rule : string) : bool :=
  match rule with
  | "" => false
  | String "<"%char _ => true
  | String _ s => has_variable s
  end.

Fixpoint lookup_endpoint (endpoint : string) (rules : list (string * string))
    : option string :=
  match rules with
  | [] => None
  | (e, rule) :: rest =>
      if String.eqb e endpoint then Some rule else lookup_endpoint endpoint rest
  end.

(** [url_for(endpoint)] with no values: the rule of the endpoint, and
    [BuildError] when the application has no such endpoint or the rule has a
    variable that was not supplied. *)
Definition url_for (endpoint : string) : M string :=
  match lookup_endpoint endpoint create_app with
  | Some rule => if has_variable rule then raise (BuildError endpoint) else ret rule
  | None => raise (BuildError endpoint)
  end.

Definition redirect (location : string) : M response := ret (Redirect location).
Definition render_template (template : string) : M response := ret (Rendered template).

(** [flash(message)]: queue the message for the next rendered page. *)
Definition flash (message : string) : M unit :=
  fun w => (Return tt, set_flashes (flashes w ++ [message]) w).

(** [request.form[key]] *)
Definition form_get (req : request) (key : string) : M string :=
  match form req !! key with
  | Some v => ret v
  | None => raise (BadRequestKeyError key)
  end.

(** ** Session *)
Definition session_get (key : string) : M (option Z) :=
  fun w => (Return (session w !! key), w).
Definition session_clear : M unit :=
  fun w => (Return tt, set_session ∅ w).
Definition session_setitem (key : string) (v : Z) : M unit :=
  fun w => (Return tt, set_session (<[key := v]> (session w)) w).

(** ** Storage *)

(** Modelled from the spec: the database accessor [get_db] of [flaskr/db.py]
    and the table definition.  [get_db] opens the request's connection on
    first use; the table is
    [user(id PK, username UNIQUE NOT NULL, password NOT NULL)] with
    auto-assigned ids; a statement sees the committed rows and the rows of the
    connection's open transaction; [commit] makes the latter durable. *)
Definition get_db : M unit :=
  fun w => (Return tt, set_g_db true w).

Definition rows (w : world) : list user_row := table w ++ txn w.

Definition fetch_by_username (u : string) (l : list user_row) : option user_row :=
  find (fun r => String.eqb (u_username r) u) l.

Definition fetch_by_id (i : Z) (l : list user_row) : option user_row :=
  find (fun r => Z.eqb (u_id r) i) l.

(** Modelled from the spec: the auto-assigned id of the table definition,
    one more than the largest id in use. *)
Definition next_id (l : list user_row) : Z :=
  1 + fold_right (fun r m => Z.max (u_id r) m) 0 l.

Definition log (op : db_op) (w : world) : world :=
  set_queries (queries w ++ [op]) w.

(** [db.execute('SELECT * FROM user WHERE username = ?', (u,)).fetchone()] *)
Definition select_by_username (u : string) : M (option user_row) :=
  fun w => (Return (fetch_by_username u (rows w)), log (SelectByUsername u) w).

(** [db.execute('SELECT * FROM user WHERE id = ?', (i,)).fetchone()] *)
Definition select_by_id (i : Z) : M (option user_row) :=
  fun w => (Return (fetch_by_id i (rows w)), log (SelectById i) w).

(** [db.execute("INSERT INTO user (username,password) VALUES (?,?)", (u, h))]:
    the uniqueness constraint on [username] is the table definition's. *)
Definition insert_user (u h : string) : M unit :=
  fun w =>
    let w1 := log (InsertUser u h) w in
    match fetch_by_username u (rows w) with
    | Some _ => (Raise IntegrityError, w1)
    | None => (Return tt, set_txn (txn w ++ [UserRow (next_id (rows w)) u h]) w1)
    end.

(** [db.commit()] *)
Definition commit : M unit :=
  fun w => (Return tt, log Commit (set_txn [] (set_table (table w ++ txn w) w))).

(** [try: body  except db.IntegrityError: ...]: [None] when the handler ran. *)
Definition try_except_IntegrityError {A} (body : M A) : M (option A) :=
  fun w => match body w with
           | (Return a, w') => (Return (Some a), w')
           | (Raise IntegrityError, w') => (Return None, w')
           | (Raise e, w') => (Raise e, w')
           end.

(** ** Views that need no password hashing *)

(** [load_logged_in_user], registered with [bp.before_app_request]. *)
Definition load_logged_in_user : M unit :=
  user_id <- session_get "user_id";;
  match user_id with
  | None => fun w => (Return tt, set_g_user (Some None) w)
  | Some i =>
      get_db;;;
      user <- select_by_id i;;
      fun w => (Return tt, set_g_user (Some user) w)
  end.

(** [logout] *)
Definition logout : M response :=
  session_clear;;;
  location <- url_for "index";;
  redirect location.

(** A view takes positional and keyword arguments. *)
Definition view : Type := list pyval -> gmap string pyval -> M response.

(** Reading [g.user]. *)
Definition g_user_get : M (option user_row) :=
  fun w => match g_user w with
           | Some u => (Return u, w)
           | None => (Raise (AttributeError "user"), w)
           end.

(** [login_required(view)]: the wrapper is [def wrapped_view( **kwargs)], so a
    call with a positional argument does not fit its signature. *)
Definition login_required (v : view) : view :=
  fun args kwargs =>
    match args with
    | _ :: _ => raise TypeError
    | [] =>
        user <- g_user_get;;
        match user with
        | None =>
            location <- url_for "auth.login";;
            redirect location
        | Some _ => v [] kwargs
        end
    end.

(** The hook runs before the view the request is routed to; the routing layer
    passes the URL variables by keyword. *)
Definition dispatch_request (v : view) (view_args : gmap string pyval) : M response :=
  load_logged_in_user;;;
  v [] view_args.

(** [hello] of [create_app]: [def hello()] takes no argument at all. *)
Definition hello : view :=
  fun args kwargs =>
    match args, map_to_list kwargs with
    | [], [] => ret (Body "Hello, World!")
    | _, _ => raise TypeError
    end.

(** ** What the table definition promises of the rows

    Usernames are pairwise distinct and ids are pairwise distinct (the two
    keys of the table); [register] adds that no username is empty. *)
Definition distinct_usernames (l : list user_row) : Prop :=
  NoDup (map u_username l).
Definition distinct_ids (l : list user_row) : Prop :=
  NoDup (map u_id l).
Definition named (l : list user_row) : Prop :=
  forall r, r ∈ l -> u_username r <> "".

(** ** Sample data

    A stand-in for the password-hashing library, used where a statement has to
    be run on concrete inputs: the salt is ignored and the hash is the
    plaintext behind a fixed prefix. *)
Definition plain_generate_password_hash (salt password : string) : string :=
  "plain$$" ++ password.
Definition plain_check_password_hash (pwhash password : string) : bool :=
  String.eqb pwhash ("plain$$" ++ password).

(** A view with the signature [def show( *args, **kwargs)]: it answers
    whether it received a positional argument. *)
Definition show : view :=
  fun args kwargs =>
    ret (Body (match args with [] => "no positional" | _ => "positional" end)).

Definition alice : user_row := UserRow 1 "alice" "plain$$secret1".

(** The start of a request: nothing in [g], no statement executed. *)
Definition new_request (s : gmap string Z) (t : list user_row) : world :=
  World s None false t [] [] [].

Definition post (fields : list (string * string)) : request :=
  Request "POST" (list_to_map fields).

(** The form the templates submit: both fields. *)
Definition credentials (username password : string) : request :=
  post [("username", username); ("password", password)].

(** A request without a session, and one whose identity load found alice,
    both on a table that holds alice only. *)
Definition anonymous : world := new_request ∅ [alice].
Definition logged_in : world :=
  set_g_user (Some (Some alice)) (new_request {[ "user_id" := 1 ]} [alice]).

(** A session that names the id of a row the table does not have. *)
Definition stale : world := new_request {[ "user_id" := 7 ]} [alice].

(** The row a registration of bob adds to alice's table, a later request
    over the two rows, and one that carries bob's session. *)
Definition bob : user_row := UserRow 2 "bob" "plain$$hunter2".
Definition after_bob : world := new_request ∅ [alice; bob].
Definition bob_session : world := new_request {[ "user_id" := 2 ]} [alice; bob].

(** ** Views that hash or verify passwords

    [werkzeug.security] is an external library: its two functions are
    parameters of the blueprint.  [generate_password_hash] draws a fresh salt
    at every call; the salt drawn while a request is served is an argument of
    the view. *)
Section Auth.

Variable generate_password_hash : string -> string -> string.
Variable check_password_hash : string -> string -> bool.

(** [register] *)
Definition register (salt : string) (req : request) : M response :=
  if String.eqb (method req) "POST" then
    username <- form_get req "username";;
    password <- form_get req "password";;
    get_db;;;
    let error :=
      match username, password with
      | "", _ => Some "Username is required"
      | _, "" => Some "Password is required"
      | _, _ => None
      end in
    r <- match error with
         | None =>
             inserted <- try_except_IntegrityError
               (insert_user username (generate_password_hash salt password);;;
                commit);;
             match inserted with
             | None => ret (inr ("User " ++ username ++ " is already registered."))
             | Some _ =>
                 location <- url_for "auth.login";;
                 resp <- redirect location;;
                 ret (inl resp)
             end
         | Some e => ret (inr e)
         end;;
    match r with
    | inl resp => ret resp
    | inr error =>
        flash error;;;
        render_template "auth/register.html"
    end
  else render_template "auth/register.html".

(** [login] *)
Definition login (req : request) : M response :=
  if String.eqb (method req) "POST" then
    username <- form_get req "username";;
    password <- form_get req "password";;
    get_db;;;
    user <- select_by_username username;;
    let error :=
      match user with
      | None => Some "Incorrect username."
      | Some u =>
          if negb (check_password_hash (u_password u) password)
          then Some "Incorrect password."
          else None
      end in
    match error with
    | None =>
        session_clear;;;
        match user with
        | Some u =>
            session_setitem "user_id" (u_id u);;;
            location <- url_for "index";;
            redirect location
        | None => raise TypeError
        end
    | Some e =>
        flash e;;;
        render_template "auth/login.html"
    end
  else render_template "auth/login.html".

End Auth.

(** ** States the views leave behind

    [rejected message w]: after [register] opened the connection and flashed
    [message] without executing a statement.  [refused u message w]: after
    [login] looked [u] up and flashed [message]. *)
Definition rejected (message : string) (w : world) : world :=
  set_flashes (flashes w ++ [message]) (set_g_db true w).
Definition refused (u message : string) (w : world) : world :=
  set_flashes (flashes w ++ [message]) (log (SelectByUsername u) (set_g_db true w)).

(** * Properties *)

Open Scope list_scope.

(** ** Lookups in the table *)

Lemma fetch_by_username_Some u l r :
  fetch_by_username u l = Some r -> r ∈ l /\ u_username r = u.
Proof.
  unfold fetch_by_username. intros H. apply find_some in H as [Hin Heq].
  split; [by apply list_elem_of_In | by apply String.eqb_eq].
Qed.

Lemma fetch_by_username_None u l :
  fetch_by_username u l = None <-> forall r, r ∈ l -> u_username r <> u.
Proof.
  unfold fetch_by_username. split.
  - intros H r Hin Heq. apply list_elem_of_In in Hin.
    pose proof (find_none _ _ H r Hin) as Hne. cbn in Hne.
    apply String.eqb_neq in Hne. contradiction.
  - intros H. induction l as [|x l IH]; [reflexivity|]. cbn.
    destruct (String.eqb_spec (u_username x) u) as [Heq|Hne].
    + exfalso. apply (H x); [left | exact Heq].
    + apply IH. intros r Hin. apply H. by right.
Qed.

Lemma fetch_by_username_snoc u l r :
  fetch_by_username u l = None -> u_username r = u ->
  fetch_by_username u (l ++ [r]) = Some r.
Proof.
  unfold fetch_by_username. intros Hnone Hu.
  induction l as [|x l IH]; cbn in *.
  - subst u. by rewrite String.eqb_refl.
  - destruct (String.eqb (u_username x) u); [discriminate | by apply IH].
Qed.

Lemma fetch_by_id_Some i l r :
  fetch_by_id i l = Some r -> r ∈ l /\ u_id r = i.
Proof.
  unfold fetch_by_id. intros H. apply find_some in H as [Hin Heq].
  split; [by apply list_elem_of_In | by apply Z.eqb_eq].
Qed.

Lemma fetch_by_id_None i l :
  fetch_by_id i l = None <-> forall r, r ∈ l -> u_id r <> i.
Proof.
  unfold fetch_by_id. split.
  - intros H r Hin Heq. apply list_elem_of_In in Hin.
    pose proof (find_none _ _ H r Hin) as Hne. cbn in Hne.
    apply Z.eqb_neq in Hne. contradiction.
  - intros H. induction l as [|x l IH]; [reflexivity|]. cbn.
    destruct (Z.eqb_spec (u_id x) i) as [Heq|Hne].
    + exfalso. apply (H x); [left | exact Heq].
    + apply IH. intros r Hin. apply H. by right.
Qed.

(** ** The route table *)

Lemma url_for_login w : url_for "auth.login" w = (Return "/auth/login", w).
Proof. reflexivity. Qed.

Lemma url_for_index w : url_for "index" w = (Raise (BuildError "index"), w).
Proof. reflexivity. Qed.

(** ** The identity load *)

Lemma load_logged_in_user_eq w :
  load_logged_in_user w =
  match session w !! "user_id" with
  | None => (Return tt, set_g_user (Some None) w)
  | Some i =>
      (Return tt,
       set_g_user (Some (fetch_by_id i (rows w)))
         (log (SelectById i) (set_g_db true w)))
  end.
Proof.
  unfold load_logged_in_user, bind, session_get.
  destruct (session w !! "user_id"); reflexivity.
Qed.

(** C5: with no user id in the session the identity load sets [g.user] to
    None, opens no connection and executes no statement; with a user id [i] it
    executes the one selection by id and sets [g.user] to the row fetched,
    which is a row of the table whose id is [i] whenever the table has one. *)
Theorem load_logged_in_user_spec (w : world) :
  match session w !! "user_id" with
  | None =>
      load_logged_in_user w = (Return tt, set_g_user (Some None) w)
      /\ queries (snd (load_logged_in_user w)) = queries w
      /\ g_db (snd (load_logged_in_user w)) = g_db w
  | Some i =>
      fst (load_logged_in_user w) = Return tt
      /\ g_user (snd (load_logged_in_user w)) = Some (fetch_by_id i (rows w))
      /\ queries (snd (load_logged_in_user w)) = queries w ++ [SelectById i]
      /\ (forall r, fetch_by_id i (rows w) = Some r -> r ∈ rows w /\ u_id r = i)
      /\ (forall r, r ∈ rows w -> u_id r = i ->
          exists r', fetch_by_id i (rows w) = Some r')
      /\ session (snd (load_logged_in_user w)) = session w
      /\ rows (snd (load_logged_in_user w)) = rows w
  end.
Proof.
  rewrite load_logged_in_user_eq.
  destruct (session w !! "user_id") as [i|]; cbn.
  - repeat split; try reflexivity.
    + by apply fetch_by_id_Some in H as [? ?].
    + by apply fetch_by_id_Some in H as [? ?].
    + intros r Hin Hid.
      destruct (fetch_by_id i (rows w)) as [r'|] eqn:E; [by exists r'|].
      exfalso. eapply fetch_by_id_None; eauto.
  - repeat split.
Qed.

(** ** Logout *)

(** C6: on the application [create_app] assembles, [logout] clears the whole
    session and touches neither the connection nor the table, but no endpoint
    is named [index], so building the redirect raises [BuildError]; a later
    identity load with the cleared session resolves no user. *)
Theorem logout_raises_BuildError (w : world) :
  logout w = (Raise (BuildError "index"), set_session ∅ w)
  /\ lookup_endpoint "index" create_app = None
  /\ session (snd (logout w)) = ∅
  /\ queries (snd (logout w)) = queries w
  /\ g_db (snd (logout w)) = g_db w
  /\ rows (snd (logout w)) = rows w
  /\ (forall w', session w' = session (snd (logout w)) ->
      g_user (snd (load_logged_in_user w')) = Some None).
Proof.
  repeat split.
  intros w' Hs. rewrite load_logged_in_user_eq, Hs. reflexivity.
Qed.

(** ** The access gate *)

Lemma login_required_eq (v : view) kwargs w :
  login_required v [] kwargs w =
  match g_user w with
  | None => (Raise (AttributeError "user"), w)
  | Some None => (Return (Redirect "/auth/login"), w)
  | Some (Some _) => v [] kwargs w
  end.
Proof.
  unfold login_required, bind, g_user_get.
  destruct (g_user w) as [[r|]|]; reflexivity.
Qed.

Lemma load_logged_in_user_sets_user w :
  exists u, g_user (snd (load_logged_in_user w)) = Some u.
Proof.
  rewrite load_logged_in_user_eq.
  destruct (session w !! "user_id"); cbn; eauto.
Qed.

(** C1, amended: the gated view takes keyword arguments only.  Called with
    any positional argument it raises [TypeError] and neither looks at the
    identity nor calls the wrapped view.  Called with keyword arguments after
    the identity load, it redirects to the login view when the load found no
    user, and otherwise it is the wrapped view called with the same keyword
    arguments in the same state. *)
Theorem login_required_keyword_only (v : view) (kwargs : gmap string pyval) (w : world) :
  (forall a args, login_required v (a :: args) kwargs w = (Raise TypeError, w))
  /\ (let w' := snd (load_logged_in_user w) in
      login_required v [] kwargs w' =
      match g_user w' with
      | Some (Some _) => v [] kwargs w'
      | _ => (Return (Redirect "/auth/login"), w')
      end)
  /\ dispatch_request (login_required v) kwargs w =
     (let w' := snd (load_logged_in_user w) in
      match g_user w' with
      | Some (Some _) => v [] kwargs w'
      | _ => (Return (Redirect "/auth/login"), w')
      end).
Proof.
  assert (Hgate : let w' := snd (load_logged_in_user w) in
      login_required v [] kwargs w' =
      match g_user w' with
      | Some (Some _) => v [] kwargs w'
      | _ => (Return (Redirect "/auth/login"), w')
      end).
  { cbn zeta. rewrite login_required_eq.
    destruct (load_logged_in_user_sets_user w) as [u ->]. by destruct u. }
  split; [reflexivity | split; [exact Hgate|]].
  unfold dispatch_request, bind. cbn zeta in Hgate.
  destruct (load_logged_in_user w) as [o w'] eqn:E.
  assert (o = Return tt) as ->.
  { rewrite load_logged_in_user_eq in E.
    destruct (session w !! "user_id"); by inversion E. }
  exact Hgate.
Qed.

(** C9: when the session names a user id that no row of the table has, the
    identity load returns normally with [g.user] set to None, and every gated
    view then redirects to the login view without calling the wrapped view. *)
Theorem stale_user_id_is_anonymous (w : world) (i : Z) :
  session w !! "user_id" = Some i ->
  (forall r, r ∈ rows w -> u_id r <> i) ->
  fst (load_logged_in_user w) = Return tt
  /\ g_user (snd (load_logged_in_user w)) = Some None
  /\ forall (v : view) kwargs,
       login_required v [] kwargs (snd (load_logged_in_user w)) =
         (Return (Redirect "/auth/login"), snd (load_logged_in_user w))
       /\ dispatch_request (login_required v) kwargs w =
         (Return (Redirect "/auth/login"), snd (load_logged_in_user w)).
Proof.
  intros Hs Hnone. apply fetch_by_id_None in Hnone.
  rewrite load_logged_in_user_eq, Hs, Hnone. cbn.
  repeat split.
  unfold dispatch_request, bind.
  rewrite load_logged_in_user_eq, Hs, Hnone. reflexivity.
Qed.

(** ** Registration and login *)

#[local] Arguments fetch_by_username : simpl never.
#[local] Arguments next_id : simpl never.
#[local] Arguments rows : simpl never.

(** Open a view up to its first state-dependent step. *)
Ltac open_register := unfold register, bind, form_get.
Ltac open_login := unfold login, bind, form_get.

Section AuthProperties.

Variable generate_password_hash : string -> string -> string.
Variable check_password_hash : string -> string -> bool.

Abbreviation register := (register generate_password_hash).
Abbreviation login := (login check_password_hash).

Lemma register_fields salt req w u p :
  method req = "POST" ->
  form req !! "username" = Some u ->
  form req !! "password" = Some p ->
  register salt req w =
  match u, p with
  | "", _ =>
      (Return (Rendered "auth/register.html"), rejected "Username is required" w)
  | _, "" =>
      (Return (Rendered "auth/register.html"), rejected "Password is required" w)
  | _, _ =>
      let h := generate_password_hash salt p in
      let w1 := log (InsertUser u h) (set_g_db true w) in
      match fetch_by_username u (rows w) with
      | Some _ =>
          (Return (Rendered "auth/register.html"),
           set_flashes
             (flashes w ++ [("User " ++ u ++ " is already registered.")%string]) w1)
      | None =>
          (Return (Redirect "/auth/login"),
           log Commit
             (set_txn []
                (set_table (table w ++ txn w ++ [UserRow (next_id (rows w)) u h])
                   w1)))
      end
  end.
Proof.
  intros Hm Hu Hp. open_register.
  rewrite Hm, Hu, Hp. cbn.
  destruct u as [|c u]; [reflexivity|].
  destruct p as [|d p]; [reflexivity|].
  cbn. unfold try_except_IntegrityError, bind, insert_user. cbn.
  change (rows (set_g_db true w)) with (rows w).
  destruct (fetch_by_username (String c u) (rows w)); cbn; [reflexivity|].
  unfold log, set_txn, set_table, set_queries, set_g_db; cbn.
  by rewrite <- app_assoc.
Qed.

(** C3, amended: for every POST to the register view that submits both
    fields, an empty username is answered with the error "Username is
    required", else an empty password with "Password is required", in both
    cases with no statement executed and no row inserted; else the insertion
    is the next statement executed.  A POST that lacks a field raises the
    framework's bad-request error before validation and inserts nothing. *)
Theorem register_validation_order (salt : string) (req : request) (w : world) :
  method req = "POST" ->
  match form req !! "username", form req !! "password" with
  | None, _ => register salt req w = (Raise (BadRequestKeyError "username"), w)
  | Some _, None => register salt req w = (Raise (BadRequestKeyError "password"), w)
  | Some "", Some _ =>
      register salt req w =
        (Return (Rendered "auth/register.html"), rejected "Username is required" w)
      /\ queries (snd (register salt req w)) = queries w
      /\ table (snd (register salt req w)) = table w
      /\ txn (snd (register salt req w)) = txn w
  | Some _, Some "" =>
      register salt req w =
        (Return (Rendered "auth/register.html"), rejected "Password is required" w)
      /\ queries (snd (register salt req w)) = queries w
      /\ table (snd (register salt req w)) = table w
      /\ txn (snd (register salt req w)) = txn w
  | Some u, Some p =>
      exists rest,
        queries (snd (register salt req w)) =
          queries w ++ InsertUser u (generate_password_hash salt p) :: rest
  end.
Proof.
  intros Hm.
  destruct (form req !! "username") as [u|] eqn:Hu.
  2: { open_register. by rewrite Hm, Hu. }
  destruct (form req !! "password") as [p|] eqn:Hp.
  2: { open_register. rewrite Hm, Hu, Hp.
       by destruct u. }
  rewrite (register_fields salt req w u p Hm Hu Hp).
  destruct u as [|c u]; [by repeat split|].
  destruct p as [|d p]; [by repeat split|].
  cbn zeta. destruct (fetch_by_username (String c u) (rows w)); cbn.
  - by exists [].
  - exists [Commit]. by rewrite <- app_assoc.
Qed.

(** C4, amended: for every registration POST whose username is not empty and
    is already in the user table and whose password is not empty, the error
    flashed is "User {username} is already registered.", the form is rendered
    again and the table is unchanged. *)
Theorem register_duplicate_username (salt : string) (req : request) (w : world)
    (u p : string) (r : user_row) :
  method req = "POST" ->
  form req !! "username" = Some u ->
  form req !! "password" = Some p ->
  u <> "" -> p <> "" ->
  r ∈ rows w -> u_username r = u ->
  fst (register salt req w) = Return (Rendered "auth/register.html")
  /\ flashes (snd (register salt req w)) =
       flashes w ++ [("User " ++ u ++ " is already registered.")%string]
  /\ table (snd (register salt req w)) = table w
  /\ txn (snd (register salt req w)) = txn w.
Proof.
  intros Hm Hu Hp Hune Hpne Hin Hr.
  rewrite (register_fields salt req w u p Hm Hu Hp).
  destruct u as [|c u]; [done|]. destruct p as [|d p]; [done|].
  cbn zeta.
  destruct (fetch_by_username (String c u) (rows w)) eqn:E; [by repeat split|].
  exfalso. eapply fetch_by_username_None; eauto.
Qed.

(** C7: a registration POST with a non-empty username that no row has and a
    non-empty password inserts exactly one row and commits it, answers with a
    redirect to the login view, and leaves the session as it was. *)
Theorem register_success (salt : string) (req : request) (w : world) (u p : string) :
  method req = "POST" ->
  form req !! "username" = Some u ->
  form req !! "password" = Some p ->
  u <> "" -> p <> "" ->
  (forall r, r ∈ rows w -> u_username r <> u) ->
  let new := UserRow (next_id (rows w)) u (generate_password_hash salt p) in
  fst (register salt req w) = Return (Redirect "/auth/login")
  /\ table (snd (register salt req w)) = rows w ++ [new]
  /\ txn (snd (register salt req w)) = []
  /\ queries (snd (register salt req w)) =
       queries w ++ [InsertUser u (generate_password_hash salt p); Commit]
  /\ session (snd (register salt req w)) = session w
  /\ flashes (snd (register salt req w)) = flashes w.
Proof.
  intros Hm Hu Hp Hune Hpne Hfresh new. subst new.
  apply fetch_by_username_None in Hfresh.
  rewrite (register_fields salt req w u p Hm Hu Hp).
  destruct u as [|c u]; [done|]. destruct p as [|d p]; [done|].
  cbn zeta. rewrite Hfresh. cbn. unfold rows.
  repeat split; by rewrite <- ?app_assoc.
Qed.

Lemma login_fields req w u p :
  method req = "POST" ->
  form req !! "username" = Some u ->
  form req !! "password" = Some p ->
  login req w =
  match fetch_by_username u (rows w) with
  | None => (Return (Rendered "auth/login.html"), refused u "Incorrect username." w)
  | Some r =>
      if check_password_hash (u_password r) p
      then (Raise (BuildError "index"),
            set_session {[ "user_id" := u_id r ]}
              (log (SelectByUsername u) (set_g_db true w)))
      else (Return (Rendered "auth/login.html"), refused u "Incorrect password." w)
  end.
Proof.
  intros Hm Hu Hp. open_login.
  rewrite Hm, Hu, Hp. cbn.
  change (rows (set_g_db true w)) with (rows w).
  destruct (fetch_by_username u (rows w)) as [r|]; cbn; [|reflexivity].
  destruct (check_password_hash (u_password r) p); cbn; [|reflexivity].
  unfold set_session; cbn. by rewrite insert_empty.
Qed.

Lemma login_not_post req w :
  method req <> "POST" -> login req w = (Return (Rendered "auth/login.html"), w).
Proof.
  intros Hm. open_login.
  by destruct (String.eqb_spec (method req) "POST").
Qed.





(** The contract of the hashing library: a hash verifies against the
    password it was made from, and is never that password itself. *)
Hypothesis check_generate :
  forall salt p, check_password_hash (generate_password_hash salt p) p = true.
Hypothesis generate_differs :
  forall salt p, generate_password_hash salt p <> p.

(** C8: after a registration with a non-empty username that no row has and
    a non-empty password, the one new row holds the hash of the password: a
    value different from the plaintext against which the plaintext verifies,
    so that a login with the same credentials on the resulting table passes
    both checks and stores the new row's id in the session. *)
Theorem register_stores_hash (salt : string) (req : request) (w : world)
    (u p : string) :
  method req = "POST" ->
  form req !! "username" = Some u ->
  form req !! "password" = Some p ->
  u <> "" -> p <> "" ->
  (forall r, r ∈ rows w -> u_username r <> u) ->
  exists new,
    table (snd (register salt req w)) = rows w ++ [new]
    /\ u_username new = u
    /\ u_password new = generate_password_hash salt p
    /\ u_password new <> p
    /\ check_password_hash (u_password new) p = true
    /\ forall req' w',
         method req' = "POST" ->
         form req' !! "username" = Some u ->
         form req' !! "password" = Some p ->
         rows w' = table (snd (register salt req w)) ->
         session (snd (login req' w')) = {[ "user_id" := u_id new ]}
         /\ flashes (snd (login req' w')) = flashes w'.
Proof.
  intros Hm Hu Hp Hune Hpne Hfresh.
  apply fetch_by_username_None in Hfresh.
  exists (UserRow (next_id (rows w)) u (generate_password_hash salt p)).
  assert (Htable : table (snd (register salt req w)) =
            rows w ++ [UserRow (next_id (rows w)) u (generate_password_hash salt p)]).
  { rewrite (register_fields salt req w u p Hm Hu Hp).
    destruct u as [|c u]; [done|]. destruct p as [|d p]; [done|].
    cbn zeta. rewrite Hfresh. cbn. unfold rows. by rewrite <- app_assoc. }
  split; [exact Htable|]. cbn.
  split_and!; auto.
  intros req' w' Hm' Hu' Hp' Hrows.
  rewrite (login_fields req' w' u p Hm' Hu' Hp'), Hrows, Htable.
  rewrite (fetch_by_username_snoc u (rows w)
             (UserRow (next_id (rows w)) u (generate_password_hash salt p))
             Hfresh eq_refl).
  cbn. by rewrite check_generate.
Qed.

End AuthProperties.

(** * The statements on concrete requests *)

(** ** The stand-in hashing scheme meets the library's contract *)

Lemma plain_check_generate salt p :
  plain_check_password_hash (plain_generate_password_hash salt p) p = true.
Proof. apply String.eqb_refl. Qed.

Lemma plain_generate_differs salt p : plain_generate_password_hash salt p <> p.
Proof.
  unfold plain_generate_password_hash. intros H.
  apply (f_equal String.length) in H.
  change (7 + String.length p = String.length p)%nat in H. lia.
Qed.

Lemma alice_only (u : string) :
  u <> "alice" -> forall r, r ∈ rows anonymous -> u_username r <> u.
Proof.
  intros Hu r Hin. apply list_elem_of_In in Hin.
  destruct Hin as [<-|[]]. cbn. congruence.
Qed.

(** ** C1 *)

(** Alice is logged in and [show] accepts a positional argument, yet the
    gated [show] called with one raises [TypeError] instead of calling it. *)
Lemma login_required_positional_counterexample :
  g_user logged_in = Some (Some alice)
  /\ show [PInt 1] ∅ logged_in = (Return (Body "positional"), logged_in)
  /\ login_required show [PInt 1] ∅ logged_in = (Raise TypeError, logged_in)
  /\ login_required show [PInt 1] ∅ logged_in <> show [PInt 1] ∅ logged_in.
Proof. split_and!; [reflexivity | reflexivity | reflexivity | discriminate]. Qed.

(** ** C2 *)



(** ** C3 *)

(** A registration POST that submits an empty username and no password: the
    error "Username is required" is not flashed; the view raises. *)
Lemma register_missing_password_counterexample :
  form (post [("username", "")]) !! "username" = Some ""
  /\ register plain_generate_password_hash "salt" (post [("username", "")]) anonymous
     = (Raise (BadRequestKeyError "password"), anonymous)
  /\ flashes (snd (register plain_generate_password_hash "salt"
                     (post [("username", "")]) anonymous)) = [].
Proof. split_and!; reflexivity. Qed.

Lemma register_validation_order_witness :
  register plain_generate_password_hash "salt" (credentials "" "secret1") anonymous
  = (Return (Rendered "auth/register.html"),
     rejected "Username is required" anonymous)
  /\ queries (snd (register plain_generate_password_hash "salt"
                     (credentials "" "secret1") anonymous)) = queries anonymous
  /\ table (snd (register plain_generate_password_hash "salt"
                   (credentials "" "secret1") anonymous)) = table anonymous
  /\ txn (snd (register plain_generate_password_hash "salt"
                 (credentials "" "secret1") anonymous)) = txn anonymous.
Proof.
  exact (register_validation_order plain_generate_password_hash "salt"
           (credentials "" "secret1") anonymous eq_refl).
Defined.

(** ** C4 *)

(** A registration POST for the existing username "alice" with an empty
    password: the error flashed is "Password is required". *)
Lemma register_duplicate_empty_password_counterexample :
  alice ∈ rows anonymous
  /\ register plain_generate_password_hash "salt" (credentials "alice" "") anonymous
     = (Return (Rendered "auth/register.html"),
        rejected "Password is required" anonymous)
  /\ flashes (snd (register plain_generate_password_hash "salt"
                     (credentials "alice" "") anonymous))
     <> ["User alice is already registered."].
Proof.
  split_and!; [apply list_elem_of_In; by left | reflexivity | discriminate].
Qed.

Lemma register_duplicate_username_witness :
  fst (register plain_generate_password_hash "salt"
         (credentials "alice" "secret2") anonymous)
  = Return (Rendered "auth/register.html")
  /\ flashes (snd (register plain_generate_password_hash "salt"
                     (credentials "alice" "secret2") anonymous))
     = flashes anonymous ++ ["User alice is already registered."]
  /\ table (snd (register plain_generate_password_hash "salt"
                   (credentials "alice" "secret2") anonymous)) = table anonymous
  /\ txn (snd (register plain_generate_password_hash "salt"
                 (credentials "alice" "secret2") anonymous)) = txn anonymous.
Proof.
  apply (register_duplicate_username plain_generate_password_hash "salt"
           (credentials "alice" "secret2") anonymous "alice" "secret2" alice);
    [reflexivity | reflexivity | reflexivity | discriminate | discriminate
    | apply list_elem_of_In; by left | reflexivity].
Defined.

(** ** C7 *)

Lemma register_success_witness :
  fst (register plain_generate_password_hash "salt"
         (credentials "bob" "hunter2") anonymous)
  = Return (Redirect "/auth/login")
  /\ table (snd (register plain_generate_password_hash "salt"
                   (credentials "bob" "hunter2") anonymous))
     = rows anonymous ++ [UserRow 2 "bob" "plain$$hunter2"]
  /\ txn (snd (register plain_generate_password_hash "salt"
                 (credentials "bob" "hunter2") anonymous)) = []
  /\ queries (snd (register plain_generate_password_hash "salt"
                     (credentials "bob" "hunter2") anonymous))
     = queries anonymous ++ [InsertUser "bob" "plain$$hunter2"; Commit]
  /\ session (snd (register plain_generate_password_hash "salt"
                     (credentials "bob" "hunter2") anonymous))
     = session anonymous
  /\ flashes (snd (register plain_generate_password_hash "salt"
                     (credentials "bob" "hunter2") anonymous))
     = flashes anonymous.
Proof.
  apply (register_success plain_generate_password_hash "salt"
           (credentials "bob" "hunter2") anonymous "bob" "hunter2");
    [reflexivity | reflexivity | reflexivity | discriminate | discriminate
    | apply alice_only; discriminate].
Defined.

(** ** C8 *)

Lemma register_stores_hash_witness :
  exists new,
    table (snd (register plain_generate_password_hash "salt"
                  (credentials "bob" "hunter2") anonymous))
    = rows anonymous ++ [new]
    /\ u_username new = "bob"
    /\ u_password new = plain_generate_password_hash "salt" "hunter2"
    /\ u_password new <> "hunter2"
    /\ plain_check_password_hash (u_password new) "hunter2" = true
    /\ forall req' w',
         method req' = "POST" ->
         form req' !! "username" = Some "bob" ->
         form req' !! "password" = Some "hunter2" ->
         rows w' = table (snd (register plain_generate_password_hash "salt"
                                 (credentials "bob" "hunter2") anonymous)) ->
         session (snd (login plain_check_password_hash req' w'))
           = {[ "user_id" := u_id new ]}
         /\ flashes (snd (login plain_check_password_hash req' w')) = flashes w'.
Proof.
  apply (register_stores_hash plain_generate_password_hash
           plain_check_password_hash plain_check_generate plain_generate_differs
           "salt" (credentials "bob" "hunter2") anonymous "bob" "hunter2");
    [reflexivity | reflexivity | reflexivity | discriminate | discriminate
    | apply alice_only; discriminate].
Defined.

(** ** C9 *)

Lemma stale_user_id_is_anonymous_witness :
  fst (load_logged_in_user stale) = Return tt
  /\ g_user (snd (load_logged_in_user stale)) = Some None
  /\ forall (v : view) kwargs,
       login_required v [] kwargs (snd (load_logged_in_user stale)) =
         (Return (Redirect "/auth/login"), snd (load_logged_in_user stale))
       /\ dispatch_request (login_required v) kwargs stale =
         (Return (Redirect "/auth/login"), snd (load_logged_in_user stale)).
Proof.
  apply (stale_user_id_is_anonymous stale 7);
    [reflexivity | apply fetch_by_id_None; reflexivity].
Defined.

(** ** C10 *)


(** * Further properties of the blueprint *)

(** ** Fresh ids *)

Lemma next_id_above (l : list user_row) (r : user_row) :
  r ∈ l -> u_id r < next_id l.
Proof.
  unfold next_id. induction l as [|x l IH]; intros Hin.
  - by apply not_elem_of_nil in Hin.
  - cbn [fold_right]. apply elem_of_cons in Hin as [->|Hin]; [lia|].
    specialize (IH Hin). lia.
Qed.

Lemma fetch_by_id_next_id (l : list user_row) :
  fetch_by_id (next_id l) l = None.
Proof.
  apply fetch_by_id_None. intros r Hin Heq.
  pose proof (next_id_above l r Hin). lia.
Qed.

Lemma fetch_by_id_snoc (i : Z) (l : list user_row) (r : user_row) :
  fetch_by_id i l = None -> u_id r = i -> fetch_by_id i (l ++ [r]) = Some r.
Proof.
  unfold fetch_by_id. intros Hnone Hi.
  induction l as [|x l IH]; cbn in *.
  - subst i. by rewrite Z.eqb_refl.
  - destruct (u_id x =? i); [discriminate | by apply IH].
Qed.

Lemma fetch_by_id_distinct (l : list user_row) (r : user_row) :
  distinct_ids l -> r ∈ l -> fetch_by_id (u_id r) l = Some r.
Proof.
  unfold distinct_ids, fetch_by_id. induction l as [|x l IH]; intros Hnd Hin.
  - by apply not_elem_of_nil in Hin.
  - cbn in Hnd. apply NoDup_cons in Hnd as [Hx Hnd]. cbn.
    apply elem_of_cons in Hin as [->|Hin]; [by rewrite Z.eqb_refl|].
    destruct (Z.eqb_spec (u_id x) (u_id r)) as [Heq|_]; [|by apply IH].
    exfalso. apply Hx. rewrite Heq. apply list_elem_of_fmap. by exists r.
Qed.

(** ** The gate in terms of the session and the table *)

Lemma dispatch_login_required_eq (v : view) kwargs w :
  dispatch_request (login_required v) kwargs w =
  match g_user (snd (load_logged_in_user w)) with
  | Some (Some _) => v [] kwargs (snd (load_logged_in_user w))
  | _ => (Return (Redirect "/auth/login"), snd (load_logged_in_user w))
  end.
Proof.
  unfold dispatch_request, bind. rewrite load_logged_in_user_eq.
  destruct (session w !! "user_id") as [i|]; cbv beta iota;
    rewrite login_required_eq; cbn; [|reflexivity].
  by destruct (fetch_by_id i (rows w)).
Qed.

(** X9: a request to a gated view runs the wrapped view exactly when the
    session holds a user id that a row of the table has; in every other case
    it is answered with the redirect to the login view.  Either way the state
    the view or the redirect sees is the one the identity load left. *)
Theorem gated_view_runs_iff_session_names_a_row
    (v : view) (kwargs : gmap string pyval) (w : world) :
  dispatch_request (login_required v) kwargs w =
  match session w !! "user_id" with
  | Some i =>
      match fetch_by_id i (rows w) with
      | Some _ => v [] kwargs (snd (load_logged_in_user w))
      | None => (Return (Redirect "/auth/login"), snd (load_logged_in_user w))
      end
  | None => (Return (Redirect "/auth/login"), set_g_user (Some None) w)
  end.
Proof.
  rewrite dispatch_login_required_eq, load_logged_in_user_eq.
  destruct (session w !! "user_id") as [i|]; cbn; [|reflexivity].
  by destruct (fetch_by_id i (rows w)).
Qed.

(** X8: gating a view twice is the same as gating it once, for every call and
    in every state. *)
Theorem login_required_idempotent
    (v : view) (args : list pyval) (kwargs : gmap string pyval) (w : world) :
  login_required (login_required v) args kwargs w = login_required v args kwargs w.
Proof.
  destruct args as [|a args]; [|reflexivity].
  rewrite (login_required_eq (login_required v)), (login_required_eq v).
  by destruct (g_user w) as [[r|]|].
Qed.

(** X10: after [logout], a request that carries the session it left never
    reaches a gated view: it is redirected to the login view, with no
    statement executed and the wrapped view not called. *)
Theorem logout_revokes_access
    (v : view) (kwargs : gmap string pyval) (w w2 : world) :
  session w2 = session (snd (logout w)) ->
  dispatch_request (login_required v) kwargs w2 =
    (Return (Redirect "/auth/login"), set_g_user (Some None) w2)
  /\ queries (snd (dispatch_request (login_required v) kwargs w2)) = queries w2.
Proof.
  intros Hs. rewrite dispatch_login_required_eq, load_logged_in_user_eq, Hs.
  split; reflexivity.
Qed.

(** X12: a request to [/hello] is answered "Hello, World!" whatever the
    session holds, but the identity load still runs first: one selection by
    id when the session holds a user id, no statement otherwise; the session
    and the table are not touched.  Called with any argument, [hello] raises
    [TypeError]. *)
Theorem hello_runs_identity_load (w : world) :
  dispatch_request hello ∅ w =
    (Return (Body "Hello, World!"), snd (load_logged_in_user w))
  /\ queries (snd (dispatch_request hello ∅ w)) =
     match session w !! "user_id" with
     | Some i => queries w ++ [SelectById i]
     | None => queries w
     end
  /\ session (snd (dispatch_request hello ∅ w)) = session w
  /\ rows (snd (dispatch_request hello ∅ w)) = rows w
  /\ (forall a args kwargs w', hello (a :: args) kwargs w' = (Raise TypeError, w'))
  /\ (forall k x kwargs w',
        kwargs !! k = Some x -> hello [] kwargs w' = (Raise TypeError, w')).
Proof.
  assert (H : dispatch_request hello ∅ w =
          (Return (Body "Hello, World!"), snd (load_logged_in_user w))).
  { unfold dispatch_request, bind. rewrite load_logged_in_user_eq.
    destruct (session w !! "user_id"); cbn; unfold hello;
      by rewrite map_to_list_empty. }
  rewrite H. cbn [snd]. rewrite load_logged_in_user_eq.
  split_and!; try done.
  - by destruct (session w !! "user_id").
  - by destruct (session w !! "user_id").
  - by destruct (session w !! "user_id").
  - intros k x kwargs w' Hk. unfold hello.
    destruct (map_to_list kwargs) as [|kv l] eqn:E; [|reflexivity].
    apply map_to_list_empty_iff in E. subst kwargs.
    by rewrite lookup_empty in Hk.
Qed.

(** ** Registration and login, every request *)

Section AuthFurther.

Variable generate_password_hash : string -> string -> string.
Variable check_password_hash : string -> string -> bool.

Abbreviation register := (register generate_password_hash).
Abbreviation login := (login check_password_hash).

Lemma register_not_post salt req w :
  method req <> "POST" ->
  register salt req w = (Return (Rendered "auth/register.html"), w).
Proof.
  intros Hm. open_register. by destruct (String.eqb_spec (method req) "POST").
Qed.

Lemma register_missing_username salt req w :
  method req = "POST" -> form req !! "username" = None ->
  register salt req w = (Raise (BadRequestKeyError "username"), w).
Proof. intros Hm Hu. open_register. by rewrite Hm, Hu. Qed.

Lemma register_missing_password salt req w u :
  method req = "POST" -> form req !! "username" = Some u ->
  form req !! "password" = None ->
  register salt req w = (Raise (BadRequestKeyError "password"), w).
Proof. intros Hm Hu Hp. open_register. by rewrite Hm, Hu, Hp. Qed.

Lemma login_missing_username req w :
  method req = "POST" -> form req !! "username" = None ->
  login req w = (Raise (BadRequestKeyError "username"), w).
Proof. intros Hm Hu. open_login. by rewrite Hm, Hu. Qed.

Lemma login_missing_password req w u :
  method req = "POST" -> form req !! "username" = Some u ->
  form req !! "password" = None ->
  login req w = (Raise (BadRequestKeyError "password"), w).
Proof. intros Hm Hu Hp. open_login. by rewrite Hm, Hu, Hp. Qed.

(** Every way through [register]: the method, the two fields, the two
    validations, the uniqueness of the username. *)
Ltac register_cases salt req w :=
  let Hm := fresh "Hm" in
  let Hu := fresh "Hu" in
  let Hp := fresh "Hp" in
  let Hf := fresh "Hf" in
  let u := fresh "u" in
  let p := fresh "p" in
  destruct (String.eqb_spec (method req) "POST") as [Hm|Hm];
  [ destruct (form req !! "username") as [u|] eqn:Hu;
    [ destruct (form req !! "password") as [p|] eqn:Hp;
      [ rewrite (register_fields generate_password_hash salt req w u p Hm Hu Hp);
        destruct u as [|? ?];
        [ | destruct p as [|? ?];
            [ | cbn zeta;
                match goal with
                | |- context [fetch_by_username ?x (rows w)] =>
                    destruct (fetch_by_username x (rows w)) eqn:Hf
                end ] ]
      | rewrite (register_missing_password salt req w u Hm Hu Hp) ]
    | rewrite (register_missing_username salt req w Hm Hu) ]
  | rewrite (register_not_post salt req w Hm) ].

(** Every way through [login]. *)
Ltac login_cases req w :=
  let Hm := fresh "Hm" in
  let Hu := fresh "Hu" in
  let Hp := fresh "Hp" in
  let Hf := fresh "Hf" in
  let Hc := fresh "Hc" in
  let u := fresh "u" in
  let p := fresh "p" in
  let r := fresh "r" in
  destruct (String.eqb_spec (method req) "POST") as [Hm|Hm];
  [ destruct (form req !! "username") as [u|] eqn:Hu;
    [ destruct (form req !! "password") as [p|] eqn:Hp;
      [ rewrite (login_fields check_password_hash req w u p Hm Hu Hp);
        destruct (fetch_by_username u (rows w)) as [r|] eqn:Hf;
        [ destruct (check_password_hash (u_password r) p) eqn:Hc | ]
      | rewrite (login_missing_password req w u Hm Hu Hp) ]
    | rewrite (login_missing_username req w Hm Hu) ]
  | rewrite (login_not_post check_password_hash req w Hm) ].

(** X1: whatever the request, [register] answers with its form or with the
    redirect to the login view, or raises the bad-request error for a field
    that was not submitted and then changes nothing; the uniqueness violation
    never escapes it.  It flashes exactly one message when it renders the form
    for a POST, and nothing in every other case; a request that is not a POST
    changes nothing at all. *)
Theorem register_outcomes (salt : string) (req : request) (w : world) :
  match fst (register salt req w) with
  | Return (Rendered t) =>
      t = "auth/register.html"
      /\ if String.eqb (method req) "POST"
         then exists e, flashes (snd (register salt req w)) = flashes w ++ [e]
         else snd (register salt req w) = w
  | Return (Redirect location) =>
      location = "/auth/login"
      /\ method req = "POST"
      /\ flashes (snd (register salt req w)) = flashes w
  | Return (Body _) => False
  | Raise (BadRequestKeyError key) =>
      form req !! key = None /\ snd (register salt req w) = w
  | Raise _ => False
  end.
Proof.
  register_cases salt req w; cbn.
  - split; [done | by eexists].
  - split; [done | by eexists].
  - split; [done | by eexists].
  - done.
  - done.
  - done.
  - done.
Qed.


Lemma register_rows salt req w :
  rows (snd (register salt req w)) = rows w
  \/ exists u h,
       u <> "" /\ fetch_by_username u (rows w) = None
       /\ rows (snd (register salt req w)) =
            rows w ++ [UserRow (next_id (rows w)) u h].
Proof.
  register_cases salt req w; try (by left).
  right. eexists _, _. split_and!; [ | exact Hf | ]; [discriminate|].
  unfold rows. cbn. by rewrite app_nil_r, <- app_assoc.
Qed.

(** X3: [register] keeps the keys of the table: if usernames are pairwise
    distinct, ids are pairwise distinct and no username is empty before the
    request, the same holds after it, whatever the request was. *)
Theorem register_keeps_table_keys (salt : string) (req : request) (w : world) :
  distinct_usernames (rows w) -> distinct_ids (rows w) -> named (rows w) ->
  distinct_usernames (rows (snd (register salt req w)))
  /\ distinct_ids (rows (snd (register salt req w)))
  /\ named (rows (snd (register salt req w))).
Proof.
  intros Hun Hid Hne.
  destruct (register_rows salt req w) as [-> | (u & h & Hu & Hf & ->)]; [done|].
  unfold distinct_usernames, distinct_ids, named in *.
  rewrite !map_app. cbn [map u_username u_id].
  split_and!.
  - apply NoDup_app. split_and!; [done | | apply NoDup_singleton].
    intros x Hx Hx'. apply list_elem_of_singleton in Hx'. subst x.
    apply list_elem_of_fmap in Hx as (r & Hr & Hin).
    eapply fetch_by_username_None; eauto.
  - apply NoDup_app. split_and!; [done | | apply NoDup_singleton].
    intros x Hx Hx'. apply list_elem_of_singleton in Hx'. subst x.
    apply list_elem_of_fmap in Hx as (r & Hr & Hin).
    pose proof (next_id_above _ _ Hin). lia.
  - intros r Hin. apply elem_of_app in Hin as [Hin|Hin]; [by apply Hne|].
    apply list_elem_of_singleton in Hin. by subst r.
Qed.

(** X4: once a username is registered it stays taken: after a successful
    registration, every later registration POST for the same username with a
    non-empty password, on the table the first one left, is answered with the
    form and the error "User {username} is already registered.", and the
    table is unchanged. *)
Theorem register_twice_rejected (salt : string) (req : request) (w : world)
    (u p : string) :
  method req = "POST" ->
  form req !! "username" = Some u ->
  form req !! "password" = Some p ->
  u <> "" -> p <> "" ->
  (forall r, r ∈ rows w -> u_username r <> u) ->
  forall salt2 req2 w2 p2,
    method req2 = "POST" ->
    form req2 !! "username" = Some u ->
    form req2 !! "password" = Some p2 ->
    p2 <> "" ->
    rows w2 = rows (snd (register salt req w)) ->
    fst (register salt2 req2 w2) = Return (Rendered "auth/register.html")
    /\ flashes (snd (register salt2 req2 w2)) =
         flashes w2 ++ [("User " ++ u ++ " is already registered.")%string]
    /\ table (snd (register salt2 req2 w2)) = table w2
    /\ txn (snd (register salt2 req2 w2)) = txn w2.
Proof.
  intros Hm Hu Hp Hune Hpne Hfresh salt2 req2 w2 p2 Hm2 Hu2 Hp2 Hp2ne Hrows.
  apply fetch_by_username_None in Hfresh.
  assert (Hnew : fetch_by_username u (rows w2) =
                 Some (UserRow (next_id (rows w)) u (generate_password_hash salt p))).
  { rewrite Hrows, (register_fields generate_password_hash salt req w u p Hm Hu Hp).
    destruct u as [|c u]; [done|]. destruct p as [|d p]; [done|].
    cbn zeta. rewrite Hfresh. unfold rows at 1. cbn.
    rewrite app_nil_r, app_assoc. by apply fetch_by_username_snoc. }
  rewrite (register_fields generate_password_hash salt2 req2 w2 u p2 Hm2 Hu2 Hp2).
  destruct u as [|c u]; [done|]. destruct p2 as [|d p2]; [done|].
  cbn zeta. by rewrite Hnew.
Qed.

(** X5: [login] never changes the table, the open transaction or [g.user],
    and never raises a type error (the row it subscripts is never None) or a
    storage error; it executes the selection by the submitted username when
    the request is a POST with both fields, and no statement otherwise. *)
Theorem login_frame (req : request) (w : world) :
  table (snd (login req w)) = table w
  /\ txn (snd (login req w)) = txn w
  /\ g_user (snd (login req w)) = g_user w
  /\ fst (login req w) <> Raise TypeError
  /\ fst (login req w) <> Raise IntegrityError
  /\ queries (snd (login req w)) =
     (if String.eqb (method req) "POST"
      then match form req !! "username", form req !! "password" with
           | Some u, Some _ => queries w ++ [SelectByUsername u]
           | _, _ => queries w
           end
      else queries w).
Proof.
  login_cases req w; cbn; split_and!; done.
Qed.

(** X6: a login that passes both checks is what the identity load of the next
    request picks up: on a request that carries the session [login] left,
    over the same rows, [g.user] is set to a row with the id of the matched
    user (the matched row itself when ids are distinct), and every gated view
    runs its wrapped view. *)
Theorem login_then_identity_load (req : request) (w : world) (u p : string)
    (r : user_row) :
  method req = "POST" ->
  form req !! "username" = Some u ->
  form req !! "password" = Some p ->
  fetch_by_username u (rows w) = Some r ->
  check_password_hash (u_password r) p = true ->
  forall w2,
    session w2 = session (snd (login req w)) ->
    rows w2 = rows w ->
    exists r',
      g_user (snd (load_logged_in_user w2)) = Some (Some r')
      /\ u_id r' = u_id r
      /\ r' ∈ rows w
      /\ (distinct_ids (rows w) -> r' = r)
      /\ forall (v : view) kwargs,
           dispatch_request (login_required v) kwargs w2 =
             v [] kwargs (snd (load_logged_in_user w2)).
Proof.
  intros Hm Hu Hp Hf Hc w2 Hs Hrows.
  rewrite (login_fields check_password_hash req w u p Hm Hu Hp), Hf, Hc in Hs.
  cbn in Hs.
  apply fetch_by_username_Some in Hf as [Hin _].
  assert (Hex : exists r', fetch_by_id (u_id r) (rows w) = Some r').
  { destruct (fetch_by_id (u_id r) (rows w)) as [r'|] eqn:E; [by eexists|].
    exfalso. eapply fetch_by_id_None; eauto. }
  destruct Hex as [r' Hr']. exists r'.
  assert (Hload : g_user (snd (load_logged_in_user w2)) = Some (Some r')).
  { rewrite load_logged_in_user_eq, Hs, lookup_singleton_eq. cbn.
    by rewrite Hrows, Hr'. }
  split_and!.
  - exact Hload.
  - by apply fetch_by_id_Some in Hr' as [_ ?].
  - by apply fetch_by_id_Some in Hr' as [? _].
  - intros Hd. rewrite (fetch_by_id_distinct _ _ Hd Hin) in Hr'. congruence.
  - intros v kwargs. by rewrite dispatch_login_required_eq, Hload.
Qed.

(** The contract of the hashing library, as for C8. *)
Hypothesis check_generate :
  forall salt p, check_password_hash (generate_password_hash salt p) p = true.

(** X7: register, log in, use: after a successful registration, a login POST
    with the same credentials over the table it left stores the new row's id
    in the session, and a request that carries that session then has the new
    row itself as [g.user] and reaches the wrapped view of every gated view. *)
Theorem register_login_then_gated_view (salt : string) (req : request) (w : world)
    (u p : string) :
  method req = "POST" ->
  form req !! "username" = Some u ->
  form req !! "password" = Some p ->
  u <> "" -> p <> "" ->
  (forall r, r ∈ rows w -> u_username r <> u) ->
  let new := UserRow (next_id (rows w)) u (generate_password_hash salt p) in
  forall req2 w2 w3,
    method req2 = "POST" ->
    form req2 !! "username" = Some u ->
    form req2 !! "password" = Some p ->
    rows w2 = rows (snd (register salt req w)) ->
    session w3 = session (snd (login req2 w2)) ->
    rows w3 = rows w2 ->
    session w3 = {[ "user_id" := u_id new ]}
    /\ g_user (snd (load_logged_in_user w3)) = Some (Some new)
    /\ forall (v : view) kwargs,
         dispatch_request (login_required v) kwargs w3 =
           v [] kwargs (snd (load_logged_in_user w3)).
Proof.
  intros Hm Hu Hp Hune Hpne Hfresh new req2 w2 w3 Hm2 Hu2 Hp2 Hrows2 Hs3 Hrows3.
  apply fetch_by_username_None in Hfresh.
  assert (Hrows : rows w2 = rows w ++ [new]).
  { rewrite Hrows2, (register_fields generate_password_hash salt req w u p Hm Hu Hp).
    destruct u as [|c u]; [done|]. destruct p as [|d p]; [done|].
    cbn zeta. rewrite Hfresh. unfold rows at 1. cbn.
    by rewrite app_nil_r, app_assoc. }
  assert (Hs : session w3 = {[ "user_id" := u_id new ]}).
  { rewrite Hs3, (login_fields check_password_hash req2 w2 u p Hm2 Hu2 Hp2), Hrows.
    rewrite (fetch_by_username_snoc u (rows w) new Hfresh eq_refl).
    cbn. by rewrite check_generate. }
  assert (Hload : g_user (snd (load_logged_in_user w3)) = Some (Some new)).
  { rewrite load_logged_in_user_eq, Hs, lookup_singleton_eq. cbn.
    rewrite Hrows3, Hrows.
    by rewrite (fetch_by_id_snoc _ _ new (fetch_by_id_next_id (rows w)) eq_refl). }
  split_and!; [done | done |].
  intros v kwargs. by rewrite dispatch_login_required_eq, Hload.
Qed.

End AuthFurther.

(** ** The endpoints a redirect can be built for *)


(** * The further properties on concrete requests *)

Lemma anonymous_table_keys :
  distinct_usernames (rows anonymous) /\ distinct_ids (rows anonymous)
  /\ named (rows anonymous).
Proof.
  split_and!.
  - apply NoDup_singleton.
  - apply NoDup_singleton.
  - intros r Hin. apply list_elem_of_In in Hin. by destruct Hin as [<-|[]].
Qed.

(** ** X3 *)

Lemma register_keeps_table_keys_witness :
  distinct_usernames
    (rows (snd (register plain_generate_password_hash "salt"
                  (credentials "bob" "hunter2") anonymous)))
  /\ distinct_ids
       (rows (snd (register plain_generate_password_hash "salt"
                     (credentials "bob" "hunter2") anonymous)))
  /\ named
       (rows (snd (register plain_generate_password_hash "salt"
                     (credentials "bob" "hunter2") anonymous))).
Proof.
  apply (register_keeps_table_keys plain_generate_password_hash "salt"
           (credentials "bob" "hunter2") anonymous);
    apply anonymous_table_keys.
Defined.

(** ** X4 *)

Lemma register_twice_rejected_witness :
  fst (register plain_generate_password_hash "pepper"
         (credentials "bob" "other") after_bob)
  = Return (Rendered "auth/register.html")
  /\ flashes (snd (register plain_generate_password_hash "pepper"
                     (credentials "bob" "other") after_bob))
     = flashes after_bob ++ ["User bob is already registered."]
  /\ table (snd (register plain_generate_password_hash "pepper"
                   (credentials "bob" "other") after_bob)) = table after_bob
  /\ txn (snd (register plain_generate_password_hash "pepper"
                 (credentials "bob" "other") after_bob)) = txn after_bob.
Proof.
  apply (register_twice_rejected plain_generate_password_hash "salt"
           (credentials "bob" "hunter2") anonymous "bob" "hunter2"
           eq_refl eq_refl eq_refl ltac:(discriminate) ltac:(discriminate)
           (alice_only "bob" ltac:(discriminate))
           "pepper" (credentials "bob" "other") after_bob "other");
    [reflexivity | reflexivity | reflexivity | discriminate | reflexivity].
Defined.

(** ** X6 *)

Lemma login_then_identity_load_witness :
  exists r',
    g_user (snd (load_logged_in_user (new_request {[ "user_id" := 1 ]} [alice])))
    = Some (Some r')
    /\ u_id r' = u_id alice
    /\ r' ∈ rows anonymous
    /\ (distinct_ids (rows anonymous) -> r' = alice)
    /\ forall (v : view) kwargs,
         dispatch_request (login_required v) kwargs
           (new_request {[ "user_id" := 1 ]} [alice]) =
         v [] kwargs
           (snd (load_logged_in_user (new_request {[ "user_id" := 1 ]} [alice]))).
Proof.
  apply (login_then_identity_load plain_check_password_hash
           (credentials "alice" "secret1") anonymous "alice" "secret1" alice
           eq_refl eq_refl eq_refl eq_refl eq_refl
           (new_request {[ "user_id" := 1 ]} [alice]));
    reflexivity.
Defined.

(** ** X7 *)

Lemma register_login_then_gated_view_witness :
  session bob_session = {[ "user_id" := 2 ]}
  /\ g_user (snd (load_logged_in_user bob_session)) = Some (Some bob)
  /\ forall (v : view) kwargs,
       dispatch_request (login_required v) kwargs bob_session =
         v [] kwargs (snd (load_logged_in_user bob_session)).
Proof.
  apply (register_login_then_gated_view plain_generate_password_hash
           plain_check_password_hash plain_check_generate "salt"
           (credentials "bob" "hunter2") anonymous "bob" "hunter2"
           eq_refl eq_refl eq_refl ltac:(discriminate) ltac:(discriminate)
           (alice_only "bob" ltac:(discriminate))
           (credentials "bob" "hunter2") after_bob bob_session);
    reflexivity.
Defined.

(** ** X10 *)

Lemma logout_revokes_access_witness :
  dispatch_request (login_required show) ∅ anonymous =
    (Return (Redirect "/auth/login"), set_g_user (Some None) anonymous)
  /\ queries (snd (dispatch_request (login_required show) ∅ anonymous))
     = queries anonymous.
Proof.
  apply (logout_revokes_access show ∅ logged_in anonymous). reflexivity.
Defined.
